(** * The instrumented course catalog of [app.py]

    A shallow embedding of the Flask application in [src/app.py]: the
    file-backed record store ([load_courses], [save_courses]), the
    process-wide counters ([route_counts], [error_counts]) and the four
    route handlers ([index], [course_catalog], [course_details],
    [add_course]).

    Handlers are written in a small state-and-exception monad over the
    state the Python module mutates: the catalog file, the two counter
    dictionaries, the events added to the request's root span and the
    flashed messages.  Span attributes, timers and log lines only feed
    the exporters and never influence control flow; they are left out. *)

From Stdlib Require Import String List ZArith Lia Bool.
Import ListNotations.
Open Scope string_scope.
Open Scope Z_scope.

(** ** Values and course dictionaries *)

(** What [request.form.get] returns and what a JSON field of a stored
    course holds: a string, or [None] (JSON [null]). *)
Definition value : Type := option string.

(** Python truthiness of such a value: [None] and [''] are falsy. *)
Definition truthy (v : value) : bool :=
  match v with
  | None => false
  | Some s => negb (String.eqb s "")
  end.

(** Python [==] between two such values. *)
Definition value_eqb (v w : value) : bool :=
  match v, w with
  | None, None => true
  | Some s, Some t => String.eqb s t
  | _, _ => false
  end.

(** [str(v)], as an f-string formats it. *)
Definition py_str (v : value) : string :=
  match v with
  | None => "None"
  | Some s => s
  end.

(** The dictionary with the nine keys of a course, as [add_course]
    builds it and as [save_courses] writes it.  The objects of the
    catalog file are taken to have this layout: the nine keys, each
    holding a string or [null]. *)
Record course : Type := mk_course {
  c_name : value;
  c_code : value;
  c_instructor : value;
  c_semester : value;
  c_schedule : value;
  c_classroom : value;
  c_prerequisites : value;
  c_grading : value;
  c_description : value
}.

(** [course.items()]: the pairs in insertion order. *)
Definition items (c : course) : list (string * value) :=
  [ ("name", c_name c);
    ("code", c_code c);
    ("instructor", c_instructor c);
    ("semester", c_semester c);
    ("schedule", c_schedule c);
    ("classroom", c_classroom c);
    ("prerequisites", c_prerequisites c);
    ("grading", c_grading c);
    ("description", c_description c) ].

(** [course.get(key)]. *)
Fixpoint assoc_get {A : Type} (key : string) (kvs : list (string * A))
  : option A :=
  match kvs with
  | [] => None
  | (k, v) :: rest => if String.eqb k key then Some v else assoc_get key rest
  end.

Definition course_get (c : course) (key : string) : option value :=
  assoc_get key (items c).

(** [bool(course)]: a dictionary is truthy when it has an entry. *)
Definition dict_truthy (c : course) : bool :=
  negb (Nat.eqb (length (items c)) 0).

(** ** The process state *)

(** The file [course_catalog.json]: missing, holding a JSON array of
    courses, or holding text [json.load] rejects. *)
Inductive catalog_file : Type :=
| Absent
| Holds (courses : list course)
| Unparsable.

(** Accesses to the file system, in the order they happen. *)
Inductive fs_op : Type :=
| PathExists
| OpenRead
| OpenWrite.

Inductive route_name : Type :=
| r_index
| r_catalog
| r_add_course
| r_course_details.

Inductive error_kind : Type :=
| e_missing_fields
| e_duplicate_code.

Record route_counters : Type := mk_route_counters {
  rc_index : Z;
  rc_catalog : Z;
  rc_add_course : Z;
  rc_course_details : Z
}.

Record error_counters : Type := mk_error_counters {
  ec_missing_fields : Z;
  ec_duplicate_code : Z
}.

(** [route_counts[k]] and [route_counts[k] += 1]. *)
Definition route_at (k : route_name) (rc : route_counters) : Z :=
  match k with
  | r_index => rc_index rc
  | r_catalog => rc_catalog rc
  | r_add_course => rc_add_course rc
  | r_course_details => rc_course_details rc
  end.

Definition route_bump (k : route_name) (rc : route_counters) : route_counters :=
  match k with
  | r_index =>
      mk_route_counters (rc_index rc + 1) (rc_catalog rc)
                        (rc_add_course rc) (rc_course_details rc)
  | r_catalog =>
      mk_route_counters (rc_index rc) (rc_catalog rc + 1)
                        (rc_add_course rc) (rc_course_details rc)
  | r_add_course =>
      mk_route_counters (rc_index rc) (rc_catalog rc)
                        (rc_add_course rc + 1) (rc_course_details rc)
  | r_course_details =>
      mk_route_counters (rc_index rc) (rc_catalog rc)
                        (rc_add_course rc) (rc_course_details rc + 1)
  end.

Definition route_name_eqb (j k : route_name) : bool :=
  match j, k with
  | r_index, r_index
  | r_catalog, r_catalog
  | r_add_course, r_add_course
  | r_course_details, r_course_details => true
  | _, _ => false
  end.

(** [error_counts[k]] and [error_counts[k] += 1]. *)
Definition error_at (k : error_kind) (ec : error_counters) : Z :=
  match k with
  | e_missing_fields => ec_missing_fields ec
  | e_duplicate_code => ec_duplicate_code ec
  end.

Definition error_bump (k : error_kind) (ec : error_counters) : error_counters :=
  match k with
  | e_missing_fields =>
      mk_error_counters (ec_missing_fields ec + 1) (ec_duplicate_code ec)
  | e_duplicate_code =>
      mk_error_counters (ec_missing_fields ec) (ec_duplicate_code ec + 1)
  end.

(** Events added to the root span of a request, with their attributes. *)
Inductive span_event : Type :=
| course_not_found (course_code : string)
| course_found (attributes : course)
| validation_failed (missing_fields : list string)
| duplicate_course_code (course_code : value)
| course_added (attributes : course)
| add_course_page_accessed.

Record state : Type := mk_state {
  course_file : catalog_file;
  route_counts : route_counters;
  error_counts : error_counters;
  fs_trace : list fs_op;
  span_events : list span_event;
  flashes : list (string * string)
}.

(** The module as it stands when the process starts and no catalog has
    been written yet. *)
Definition initial_state : state :=
  mk_state Absent (mk_route_counters 0 0 0 0) (mk_error_counters 0 0) [] [] [].

(** ** The monad of handlers *)

Inductive exn : Type :=
| JSONDecodeError
| FileNotFoundError.

Inductive result (A : Type) : Type :=
| Ok (a : A)
| Raise (e : exn).
Arguments Ok {A} a.
Arguments Raise {A} e.

(** A computation reads and updates the state; the state reached when an
    exception is raised is kept, as in Python. *)
Definition M (A : Type) : Type := state -> result A * state.

Definition ret {A : Type} (a : A) : M A := fun st => (Ok a, st).

Definition bind {A B : Type} (m : M A) (f : A -> M B) : M B :=
  fun st =>
    match m st with
    | (Ok a, st') => f a st'
    | (Raise e, st') => (Raise e, st')
    end.

Definition raise {A : Type} (e : exn) : M A := fun st => (Raise e, st).

Declare Scope py_scope.
Delimit Scope py_scope with py.
Notation "x <- m ;; k" := (bind m (fun x => k))
  (at level 100, m at next level, right associativity) : py_scope.
Notation "m ;; k" := (bind m (fun _ => k))
  (at level 100, right associativity) : py_scope.
Open Scope py_scope.

Definition log_fs (op : fs_op) : M unit := fun st =>
  (Ok tt,
   mk_state (course_file st) (route_counts st) (error_counts st)
            (fs_trace st ++ [op]) (span_events st) (flashes st)).

(** [os.path.exists(COURSE_FILE)]. *)
Definition os_path_exists : M bool :=
  log_fs PathExists ;;
  fun st =>
    match course_file st with
    | Absent => ret false st
    | _ => ret true st
    end.

(** [with open(COURSE_FILE, 'r') as file: return json.load(file)].
    What [json.dump] wrote is what [json.load] reads back: a list of
    dictionaries with string keys and string or [null] values survives
    the round trip through JSON text unchanged. *)
Definition json_load : M (list course) :=
  log_fs OpenRead ;;
  fun st =>
    match course_file st with
    | Absent => raise FileNotFoundError st
    | Holds l => ret l st
    | Unparsable => raise JSONDecodeError st
    end.

(** [with open(COURSE_FILE, 'w') as file: json.dump(courses, file, indent=4)]:
    the previous contents are replaced. *)
Definition json_dump (courses : list course) : M unit :=
  log_fs OpenWrite ;;
  fun st =>
    (Ok tt,
     mk_state (Holds courses) (route_counts st) (error_counts st)
              (fs_trace st) (span_events st) (flashes st)).

(** [route_counts[k] += 1]. *)
Definition incr_route (k : route_name) : M unit := fun st =>
  (Ok tt,
   mk_state (course_file st) (route_bump k (route_counts st)) (error_counts st)
            (fs_trace st) (span_events st) (flashes st)).

(** [error_counts[k] += 1]. *)
Definition incr_error (k : error_kind) : M unit := fun st =>
  (Ok tt,
   mk_state (course_file st) (route_counts st) (error_bump k (error_counts st))
            (fs_trace st) (span_events st) (flashes st)).

(** [span.add_event(...)] on the root span. *)
Definition add_event (e : span_event) : M unit := fun st =>
  (Ok tt,
   mk_state (course_file st) (route_counts st) (error_counts st)
            (fs_trace st) (span_events st ++ [e]) (flashes st)).

(** [flash(message, category)]. *)
Definition flash (message category : string) : M unit := fun st =>
  (Ok tt,
   mk_state (course_file st) (route_counts st) (error_counts st)
            (fs_trace st) (span_events st) (flashes st ++ [(message, category)])).

(** ** Utility functions *)

Definition load_courses : M (list course) :=
  present <- os_path_exists ;;
  if negb present then ret [] else json_load.

Definition save_courses (data : course) : M unit :=
  courses <- load_courses ;;
  json_dump (courses ++ [data]).

(** ** Routes *)

(** What a handler hands back to Flask. *)
Inductive template_args : Type :=
| no_args
| with_courses (courses : list course)
| with_course (c : course).

Inductive response : Type :=
| render_template (template : string) (args : template_args)
| redirect (endpoint : string).

(** The submitted form: [request.form.get(key)] is the first value sent
    under [key], or [None]. *)
Definition form_data : Type := list (string * string).

Definition form_get (form : form_data) (key : string) : value :=
  assoc_get key form.

Definition index : M response :=
  incr_route r_index ;;
  ret (render_template "index.html" no_args).

Definition course_catalog : M response :=
  incr_route r_catalog ;;
  courses <- load_courses ;;
  ret (render_template "course_catalog.html" (with_courses courses)).

(** [next((course for course in courses if course['code'] == code), None)]. *)
Definition first_with_code (code : value) (courses : list course)
  : option course :=
  find (fun c => value_eqb (c_code c) code) courses.

(** The branch of [course_details] taken under [if not course:]. *)
Definition course_missing (code : string) : M response :=
  add_event (course_not_found code) ;;
  flash ("No course found with code '" ++ code ++ "'.") "error" ;;
  incr_error e_missing_fields ;;
  ret (redirect "course_catalog").

(** [course] is [None], or the dictionary [next] returned; [not course]
    holds for [None] and for a dictionary without entries. *)
Definition course_details (code : string) : M response :=
  incr_route r_course_details ;;
  courses <- load_courses ;;
  match first_with_code (Some code) courses with
  | None => course_missing code
  | Some c =>
      if negb (dict_truthy c) then course_missing code
      else
        add_event (course_found c) ;;
        ret (render_template "course_details.html" (with_course c))
  end.

(** The set literal of required keys. *)
Definition required_fields : list string :=
  ["name"; "code"; "instructor"; "semester"].

Definition is_required (key : string) : bool :=
  existsb (String.eqb key) required_fields.

(** [bool(course)] for what [next(..., None)] returned. *)
Definition course_truthy (found : option course) : bool :=
  match found with
  | None => false
  | Some c => dict_truthy c
  end.

(** The dictionary literal [course_data] of [add_course]. *)
Definition course_data (form : form_data) : course :=
  {| c_name := form_get form "name";
     c_code := form_get form "code";
     c_instructor := form_get form "instructor";
     c_semester := form_get form "semester";
     c_schedule := form_get form "schedule";
     c_classroom := form_get form "classroom";
     c_prerequisites := form_get form "prerequisites";
     c_grading := form_get form "grading";
     c_description := form_get form "description" |}.

(** [[key for key, value in course_data.items()
      if not value and key in {...}]]. *)
Definition missing_fields (data : course) : list string :=
  map fst
      (filter (fun kv => negb (truthy (snd kv)) && is_required (fst kv))
              (items data)).

(** [", ".join(missing_fields)]. *)
Definition join_comma (l : list string) : string := String.concat ", " l.

Definition add_course (method : string) (form : form_data) : M response :=
  incr_route r_add_course ;;
  if String.eqb method "POST" then
    let data := course_data form in
    let missing := missing_fields data in
    match missing with
    | _ :: _ =>
        incr_error e_missing_fields ;;
        add_event (validation_failed missing) ;;
        flash ("The following fields are required: " ++ join_comma missing)
              "error" ;;
        ret (redirect "add_course")
    | [] =>
        courses <- load_courses ;;
        let duplicate_course := first_with_code (c_code data) courses in
        if course_truthy duplicate_course then
          incr_error e_duplicate_code ;;
          add_event (duplicate_course_code (c_code data)) ;;
          flash ("A course with the code '" ++ py_str (c_code data)
                 ++ "' already exists.") "error" ;;
          ret (redirect "add_course")
        else
          save_courses data ;;
          add_event (course_added data) ;;
          flash "Course added successfully!" "success" ;;
          ret (redirect "course_catalog")
    end
  else
    add_event add_course_page_accessed ;;
    ret (render_template "add_course.html" no_args).

(** ** Requests *)

(** The requests Flask routes to the four handlers. *)
Inductive request : Type :=
| req_index
| req_catalog
| req_course (code : string)
| req_add_course (method : string) (form : form_data).

Definition dispatch (r : request) : M response :=
  match r with
  | req_index => index
  | req_catalog => course_catalog
  | req_course code => course_details code
  | req_add_course method form => add_course method form
  end.

Definition route_of (r : request) : route_name :=
  match r with
  | req_index => r_index
  | req_catalog => r_catalog
  | req_course _ => r_course_details
  | req_add_course _ _ => r_add_course
  end.

(** Serving requests one after the other; a request whose handler raises
    is answered with an error page and the process goes on. *)
Fixpoint serve (rs : list request) (st : state) : state :=
  match rs with
  | [] => st
  | r :: rest => serve rest (snd (dispatch r st))
  end.

(** The sequence of courses a state's catalog file stands for, when it
    can be loaded. *)
Definition stored (st : state) : option (list course) :=
  match course_file st with
  | Absent => Some []
  | Holds l => Some l
  | Unparsable => None
  end.

(** The fields [add_course] never requires. *)
Definition optional_fields : list string :=
  ["schedule"; "classroom"; "prerequisites"; "grading"; "description"].

(** The file-system accesses one call of [load_courses] makes. *)
Definition load_ops (f : catalog_file) : list fs_op :=
  match f with
  | Absent => [PathExists]
  | _ => [PathExists; OpenRead]
  end.

(** A state after further file-system accesses and nothing else. *)
Definition traced (ops : list fs_op) (st : state) : state :=
  mk_state (course_file st) (route_counts st) (error_counts st)
           (fs_trace st ++ ops) (span_events st) (flashes st).

(** How a computation may change the state, for every state it runs in. *)
Definition preserves {A : Type} (R : state -> state -> Prop) (m : M A)
  : Prop :=
  forall st, R st (snd (m st)).

(** The route counters are the same and no error counter went down. *)
Definition quiet (st st' : state) : Prop :=
  route_counts st' = route_counts st /\
  forall k, error_at k (error_counts st) <= error_at k (error_counts st').

(** ** Sample data

    The records and forms of the catalog's example scenario. *)

Definition algorithms_form : form_data :=
  [("name", "Algorithms"); ("code", "CS301");
   ("instructor", "A. Turing"); ("semester", "Fall")].

Definition cs301 : course :=
  mk_course (Some "Algorithms") (Some "CS301") (Some "A. Turing")
            (Some "Fall") None None None None None.

Definition cs101 : course :=
  mk_course (Some "Programming") (Some "CS101") (Some "G. Hopper")
            (Some "Spring") (Some "Mon 9:00") (Some "") (Some "")
            (Some "") (Some "").

(** A form repeating the code of [cs301] under other required values. *)
Definition clash_form : form_data :=
  [("code", "CS301"); ("name", "X"); ("instructor", "Y"); ("semester", "Z")].

(** A form whose name was submitted empty and whose semester was not
    submitted at all. *)
Definition nameless_form : form_data :=
  [("name", ""); ("code", "CS301"); ("instructor", "B")].

(** A process whose catalog file holds the given courses. *)
Definition state_with (l : list course) : state :=
  mk_state (Holds l) (mk_route_counters 0 0 0 0) (mk_error_counters 0 0)
           [] [] [].

(** ** A case view of the handlers

    What a handler returns and the state it leaves, sorted by the tests
    it makes; [dispatch_handled] below shows that [dispatch] always
    falls in exactly these cases. *)

(** What [load_courses] returns on each kind of file. *)
Definition load_result (f : catalog_file) : result (list course) :=
  match f with
  | Absent => Ok []
  | Holds l => Ok l
  | Unparsable => Raise JSONDecodeError
  end.

(** The state after a handler that bumped route [k], bumped the error
    counters [errs] in turn, made the file accesses [ops], added the
    span events [evs] and flashed [fls], the file keeping its contents. *)
Definition after (st : state) (k : route_name) (errs : list error_kind)
  (ops : list fs_op) (evs : list span_event) (fls : list (string * string))
  : state :=
  mk_state (course_file st)
           (route_bump k (route_counts st))
           (fold_left (fun ec e => error_bump e ec) errs (error_counts st))
           (fs_trace st ++ ops) (span_events st ++ evs) (flashes st ++ fls).

(** The same state with the catalog file rewritten. *)
Definition rewritten (courses : list course) (st : state) : state :=
  mk_state (Holds courses) (route_counts st) (error_counts st)
           (fs_trace st) (span_events st) (flashes st).

Inductive handled : request -> state -> result response -> state -> Prop :=
| handled_index st :
    handled req_index st
            (Ok (render_template "index.html" no_args))
            (after st r_index [] [] [] [])
| handled_catalog st l :
    stored st = Some l ->
    handled req_catalog st
            (Ok (render_template "course_catalog.html" (with_courses l)))
            (after st r_catalog [] (load_ops (course_file st)) [] [])
| handled_catalog_raise st :
    course_file st = Unparsable ->
    handled req_catalog st (Raise JSONDecodeError)
            (after st r_catalog [] [PathExists; OpenRead] [] [])
| handled_details_found st l code c :
    stored st = Some l ->
    first_with_code (Some code) l = Some c ->
    handled (req_course code) st
            (Ok (render_template "course_details.html" (with_course c)))
            (after st r_course_details [] (load_ops (course_file st))
                   [course_found c] [])
| handled_details_missing st l code :
    stored st = Some l ->
    first_with_code (Some code) l = None ->
    handled (req_course code) st
            (Ok (redirect "course_catalog"))
            (after st r_course_details [e_missing_fields]
                   (load_ops (course_file st)) [course_not_found code]
                   [("No course found with code '" ++ code ++ "'.",
                     "error")])
| handled_details_raise st code :
    course_file st = Unparsable ->
    handled (req_course code) st (Raise JSONDecodeError)
            (after st r_course_details [] [PathExists; OpenRead] [] [])
| handled_add_page st method form :
    String.eqb method "POST" = false ->
    handled (req_add_course method form) st
            (Ok (render_template "add_course.html" no_args))
            (after st r_add_course [] [] [add_course_page_accessed] [])
| handled_add_invalid st form :
    missing_fields (course_data form) <> [] ->
    handled (req_add_course "POST" form) st
            (Ok (redirect "add_course"))
            (after st r_add_course [e_missing_fields] []
                   [validation_failed (missing_fields (course_data form))]
                   [("The following fields are required: "
                     ++ join_comma (missing_fields (course_data form)),
                     "error")])
| handled_add_raise st form :
    missing_fields (course_data form) = [] ->
    course_file st = Unparsable ->
    handled (req_add_course "POST" form) st (Raise JSONDecodeError)
            (after st r_add_course [] [PathExists; OpenRead] [] [])
| handled_add_duplicate st l form d :
    missing_fields (course_data form) = [] ->
    stored st = Some l ->
    first_with_code (c_code (course_data form)) l = Some d ->
    handled (req_add_course "POST" form) st
            (Ok (redirect "add_course"))
            (after st r_add_course [e_duplicate_code]
                   (load_ops (course_file st))
                   [duplicate_course_code (c_code (course_data form))]
                   [("A course with the code '"
                     ++ py_str (c_code (course_data form))
                     ++ "' already exists.", "error")])
| handled_add_created st l form :
    missing_fields (course_data form) = [] ->
    stored st = Some l ->
    first_with_code (c_code (course_data form)) l = None ->
    handled (req_add_course "POST" form) st
            (Ok (redirect "course_catalog"))
            (rewritten (l ++ [course_data form])
               (after st r_add_course []
                      (load_ops (course_file st)
                       ++ load_ops (course_file st) ++ [OpenWrite])
                      [course_added (course_data form)]
                      [("Course added successfully!", "success")])).

(** ** Measures on requests, events and courses *)

(** Whether a request is one of the three that only read. *)
Definition reads_only (r : request) : bool :=
  match r with
  | req_add_course _ _ => false
  | _ => true
  end.

(** How many of the requests go to route [k]. *)
Definition count_route (k : route_name) (rs : list request) : Z :=
  Z.of_nat (length (filter (fun r => route_name_eqb (route_of r) k) rs)).

(** The error counter a span event comes with, if any. *)
Definition error_of_event (e : span_event) : option error_kind :=
  match e with
  | course_not_found _ => Some e_missing_fields
  | validation_failed _ => Some e_missing_fields
  | duplicate_course_code _ => Some e_duplicate_code
  | course_found _ | course_added _ | add_course_page_accessed => None
  end.

Definition error_kind_eqb (j k : error_kind) : bool :=
  match j, k with
  | e_missing_fields, e_missing_fields
  | e_duplicate_code, e_duplicate_code => true
  | _, _ => false
  end.

(** How many of the events come with error counter [k]. *)
Definition count_errors (k : error_kind) (evs : list span_event) : Z :=
  Z.of_nat
    (length
       (filter (fun e => match error_of_event e with
                         | Some j => error_kind_eqb j k
                         | None => false
                         end) evs)).

(** A course whose four required values are all non-empty strings. *)
Definition complete (c : course) : Prop :=
  truthy (c_name c) = true /\ truthy (c_code c) = true /\
  truthy (c_instructor c) = true /\ truthy (c_semester c) = true.

(** ** Values, dictionaries and lists *)

Lemma value_eqb_eq (v w : value) : value_eqb v w = true <-> v = w.
Proof.
  destruct v as [s|], w as [t|]; simpl; split; intro H;
    try discriminate; try reflexivity.
  - apply String.eqb_eq in H. now subst.
  - inversion H; subst. apply String.eqb_refl.
Qed.

Lemma value_eqb_neq (v w : value) : value_eqb v w = false <-> v <> w.
Proof.
  rewrite <- value_eqb_eq. destruct (value_eqb v w); split; intro H;
    try discriminate; try reflexivity; try (intro; discriminate).
  now elim H.
Qed.

Lemma truthy_false (v : value) :
  truthy v = false <-> v = None \/ v = Some "".
Proof.
  destruct v as [s|]; simpl.
  - rewrite negb_false_iff, String.eqb_eq. split.
    + intros ->. now right.
    + intros [H|H]; [discriminate | now inversion H].
  - split; [now left | reflexivity].
Qed.

Lemma truthy_some (v : value) :
  truthy v = true -> exists s, v = Some s /\ s <> "".
Proof.
  destruct v as [s|]; simpl; [|discriminate].
  rewrite negb_true_iff, String.eqb_neq. intro H. now exists s.
Qed.

(** A dictionary built with the nine keys is never empty. *)
Lemma dict_truthy_course (c : course) : dict_truthy c = true.
Proof. reflexivity. Qed.

Lemma course_data_items (form : form_data) :
  items (course_data form)
  = map (fun k => (k, form_get form k))
        (required_fields ++ optional_fields)%list.
Proof. reflexivity. Qed.

(** [first_with_code] returns the first match: everything before it has
    another code. *)
Lemma first_with_code_split (code : value) (l : list course) (c : course) :
  first_with_code code l = Some c <->
  exists l1 l2, l = (l1 ++ c :: l2)%list /\ c_code c = code /\
                forall x, In x l1 -> c_code x <> code.
Proof.
  unfold first_with_code. induction l as [|a l IH]; simpl.
  - split; [discriminate|]. intros (l1 & l2 & E & _). now destruct l1.
  - destruct (value_eqb (c_code a) code) eqn:Ea.
    + apply value_eqb_eq in Ea. split.
      * intros [= <-]. exists [], l.
        split; [reflexivity | split; [assumption | intros x []]].
      * intros (l1 & l2 & E & Hc & Hl1). destruct l1 as [|b l1]; simpl in E.
        -- now inversion E.
        -- inversion E; subst b. elim (Hl1 a); simpl; auto.
    + apply value_eqb_neq in Ea. rewrite IH. split.
      * intros (l1 & l2 & -> & Hc & Hl1). exists (a :: l1), l2.
        repeat split; auto. intros x [<-|Hx]; auto.
      * intros (l1 & l2 & E & Hc & Hl1). destruct l1 as [|b l1]; simpl in E.
        -- inversion E; subst a. contradiction.
        -- inversion E; subst. exists l1, l2. repeat split; auto.
           intros x Hx. apply Hl1. now right.
Qed.

Lemma first_with_code_none (code : value) (l : list course) :
  first_with_code code l = None <-> forall x, In x l -> c_code x <> code.
Proof.
  unfold first_with_code. split.
  - intros H x Hx. apply value_eqb_neq. exact (find_none _ _ H x Hx).
  - intro H. induction l as [|a l IH]; simpl; [reflexivity|].
    destruct (value_eqb (c_code a) code) eqn:Ea.
    + apply value_eqb_eq in Ea. elim (H a); simpl; auto.
    + apply IH. intros x Hx. apply H. now right.
Qed.

Lemma NoDup_map_snoc {A B : Type} (f : A -> B) (l : list A) (a : A) :
  NoDup (map f l) -> ~ In (f a) (map f l) -> NoDup (map f (l ++ [a])%list).
Proof.
  induction l as [|b l IH]; simpl; intros Hnd Hin.
  - constructor; [intros []|constructor].
  - inversion Hnd as [|x xs Hb Hl]; subst. constructor.
    + rewrite map_app, in_app_iff. simpl. intros [H|[H|[]]]; auto.
    + apply IH; auto.
Qed.

(** ** The record store *)

Lemma load_courses_stored (st : state) (l : list course) :
  stored st = Some l ->
  load_courses st = (Ok l, traced (load_ops (course_file st)) st).
Proof.
  unfold stored, load_courses, os_path_exists, json_load, bind, traced.
  destruct st as [f rc ec tr ev fl]; simpl.
  destruct f; simpl; intros [= <-]; try reflexivity.
  now rewrite <- app_assoc.
Qed.

Lemma load_courses_unparsable (st : state) :
  course_file st = Unparsable ->
  fst (load_courses st) = Raise JSONDecodeError.
Proof.
  unfold load_courses, os_path_exists, json_load, bind.
  destruct st as [f rc ec tr ev fl]; simpl. now intros ->.
Qed.

Lemma load_ops_read_only (f : catalog_file) : ~ In OpenWrite (load_ops f).
Proof. destruct f; simpl; intuition discriminate. Qed.

Lemma save_courses_run (st : state) (l : list course) (data : course) :
  stored st = Some l ->
  save_courses data st
  = (Ok tt,
     mk_state (Holds (l ++ [data])) (route_counts st) (error_counts st)
              (fs_trace st ++ load_ops (course_file st) ++ [OpenWrite])
              (span_events st) (flashes st)).
Proof.
  intro H. unfold save_courses, bind. rewrite (load_courses_stored st l H).
  unfold json_dump, log_fs, bind, traced; simpl. now rewrite <- app_assoc.
Qed.

(** C5. Whatever the catalog file stands for, [save_courses] leaves it
    holding the former sequence followed by the new record: the former
    records keep their positions and the new one comes last; the
    counters, span events and flashed messages are not touched. *)
Theorem save_courses_appends (st : state) (l : list course) (data : course) :
  stored st = Some l ->
  exists st',
    save_courses data st = (Ok tt, st') /\
    course_file st' = Holds (l ++ [data]) /\
    stored st' = Some (l ++ [data])%list /\
    (forall i c, nth_error l i = Some c ->
                 nth_error (l ++ [data]) i = Some c) /\
    nth_error (l ++ [data]) (length l) = Some data /\
    route_counts st' = route_counts st /\
    error_counts st' = error_counts st /\
    span_events st' = span_events st /\
    flashes st' = flashes st.
Proof.
  intro H. eexists. split; [apply (save_courses_run st l data H)|].
  simpl. repeat split.
  - intros i c Hi. rewrite nth_error_app1; [assumption|].
    apply nth_error_Some. congruence.
  - rewrite nth_error_app2, Nat.sub_diag by apply Nat.le_refl. reflexivity.
Qed.

Lemma save_courses_appends_witness :
  stored (state_with [cs101]) = Some [cs101] /\
  exists st',
    save_courses cs301 (state_with [cs101]) = (Ok tt, st') /\
    course_file st' = Holds ([cs101] ++ [cs301]) /\
    stored st' = Some ([cs101] ++ [cs301])%list /\
    (forall i c, nth_error [cs101] i = Some c ->
                 nth_error ([cs101] ++ [cs301]) i = Some c) /\
    nth_error ([cs101] ++ [cs301]) (length [cs101]) = Some cs301 /\
    route_counts st' = route_counts (state_with [cs101]) /\
    error_counts st' = error_counts (state_with [cs101]) /\
    span_events st' = span_events (state_with [cs101]) /\
    flashes st' = flashes (state_with [cs101]).
Proof.
  split; [reflexivity|].
  apply (save_courses_appends (state_with [cs101]) [cs101] cs301).
  reflexivity.
Defined.

(** ** Listing and looking up *)

Lemma course_catalog_run (st : state) (l : list course) :
  stored st = Some l ->
  course_catalog st
  = (Ok (render_template "course_catalog.html" (with_courses l)),
     mk_state (course_file st) (route_bump r_catalog (route_counts st))
              (error_counts st) (fs_trace st ++ load_ops (course_file st))
              (span_events st) (flashes st)).
Proof.
  intro H. unfold course_catalog, bind, incr_route.
  rewrite (load_courses_stored _ l) by exact H. reflexivity.
Qed.

Lemma course_details_run (st : state) (l : list course) (code : string) :
  stored st = Some l ->
  course_details code st
  = match first_with_code (Some code) l with
    | Some c =>
        (Ok (render_template "course_details.html" (with_course c)),
         mk_state (course_file st)
                  (route_bump r_course_details (route_counts st))
                  (error_counts st) (fs_trace st ++ load_ops (course_file st))
                  (span_events st ++ [course_found c]) (flashes st))
    | None =>
        (Ok (redirect "course_catalog"),
         mk_state (course_file st)
                  (route_bump r_course_details (route_counts st))
                  (error_bump e_missing_fields (error_counts st))
                  (fs_trace st ++ load_ops (course_file st))
                  (span_events st ++ [course_not_found code])
                  (flashes st
                   ++ [("No course found with code '" ++ code ++ "'.",
                        "error")]))
    end.
Proof.
  intro H. unfold course_details, bind, incr_route.
  rewrite (load_courses_stored _ l) by exact H.
  destruct (first_with_code (Some code) l) as [c|]; reflexivity.
Qed.

(** C6. [course_details] answers with the first stored course whose code
    is the requested one, when there is one.  When no stored course has
    that code it redirects to the catalog with a [course_not_found]
    event (the not-found outcome), leaves the catalog file as it was,
    never opens it for writing, and adds exactly one to
    [error_counts['missing_fields']], nothing to the other error
    counter. *)
Theorem course_details_first_match
  (st : state) (l : list course) (code : string) :
  stored st = Some l ->
  (forall l1 c l2,
      l = (l1 ++ c :: l2)%list ->
      c_code c = Some code ->
      (forall x, In x l1 -> c_code x <> Some code) ->
      exists st',
        course_details code st
        = (Ok (render_template "course_details.html" (with_course c)), st') /\
        course_file st' = course_file st /\
        error_counts st' = error_counts st) /\
  ((forall x, In x l -> c_code x <> Some code) ->
   exists st',
     course_details code st = (Ok (redirect "course_catalog"), st') /\
     span_events st' = (span_events st ++ [course_not_found code])%list /\
     course_file st' = course_file st /\
     (exists ops, fs_trace st' = (fs_trace st ++ ops)%list /\
                  ~ In OpenWrite ops) /\
     error_at e_missing_fields (error_counts st')
     = error_at e_missing_fields (error_counts st) + 1 /\
     error_at e_duplicate_code (error_counts st')
     = error_at e_duplicate_code (error_counts st)).
Proof.
  intro H. rewrite (course_details_run st l code H). split.
  - intros l1 c l2 El Hc Hl1.
    assert (F : first_with_code (Some code) l = Some c).
    { apply first_with_code_split. now exists l1, l2. }
    rewrite F. eexists. split; [reflexivity|]. now simpl.
  - intro Hl. apply first_with_code_none in Hl. rewrite Hl.
    eexists. split; [reflexivity|]. simpl. repeat split.
    exists (load_ops (course_file st)). split; [reflexivity|].
    apply load_ops_read_only.
Qed.

Lemma course_details_first_match_witness :
  stored (state_with [cs101; cs301]) = Some [cs101; cs301] /\
  (exists st',
      course_details "CS301" (state_with [cs101; cs301])
      = (Ok (render_template "course_details.html" (with_course cs301)), st') /\
      course_file st' = course_file (state_with [cs101; cs301]) /\
      error_counts st' = error_counts (state_with [cs101; cs301])) /\
  (exists st',
      course_details "CS999" (state_with [cs101; cs301])
      = (Ok (redirect "course_catalog"), st') /\
      error_at e_missing_fields (error_counts st') = 1).
Proof.
  split; [reflexivity|]. split.
  - apply (proj1 (course_details_first_match
                    (state_with [cs101; cs301]) [cs101; cs301] "CS301"
                    eq_refl) [cs101] cs301 []); try reflexivity.
    intros x [<-|[]]. discriminate.
  - destruct (proj2 (course_details_first_match
                       (state_with [cs101; cs301]) [cs101; cs301] "CS999"
                       eq_refl)) as (st' & E & _ & _ & _ & Hm & _).
    + intros x [<-|[<-|[]]]; discriminate.
    + exists st'. split; [exact E|exact Hm].
Defined.

(** C7. With no catalog file, [load_courses] returns the empty list
    without opening anything, and [course_catalog] on an absent or empty
    catalog renders the catalog page with the empty list; neither
    raises. *)
Theorem load_courses_absent (st : state) :
  (course_file st = Absent ->
   load_courses st = (Ok [], traced [PathExists] st)) /\
  (course_file st = Absent \/ course_file st = Holds [] ->
   exists st',
     course_catalog st
     = (Ok (render_template "course_catalog.html" (with_courses [])), st') /\
     course_file st' = course_file st).
Proof.
  split.
  - intro H. rewrite (load_courses_stored st []).
    + now rewrite H.
    + unfold stored. now rewrite H.
  - intro H. rewrite (course_catalog_run st []).
    + eexists. split; reflexivity.
    + unfold stored. now destruct H as [-> | ->].
Qed.

Lemma load_courses_absent_witness :
  course_file initial_state = Absent /\
  load_courses initial_state = (Ok [], traced [PathExists] initial_state) /\
  (exists st',
      course_catalog initial_state
      = (Ok (render_template "course_catalog.html" (with_courses [])), st') /\
      course_file st' = course_file initial_state) /\
  (exists st',
      course_catalog (state_with [])
      = (Ok (render_template "course_catalog.html" (with_courses [])), st') /\
      course_file st' = course_file (state_with [])).
Proof.
  split; [reflexivity|]. split; [|split].
  - apply (proj1 (load_courses_absent initial_state)). reflexivity.
  - apply (proj2 (load_courses_absent initial_state)). left. reflexivity.
  - apply (proj2 (load_courses_absent (state_with []))). right. reflexivity.
Defined.

(** ** Validation *)

Lemma missing_fields_filter (form : form_data) :
  missing_fields (course_data form)
  = filter (fun k => negb (truthy (form_get form k))) required_fields.
Proof.
  unfold missing_fields. rewrite course_data_items. simpl.
  rewrite ?andb_true_r, ?andb_false_r.
  destruct (truthy (form_get form "name")),
           (truthy (form_get form "code")),
           (truthy (form_get form "instructor")),
           (truthy (form_get form "semester")); reflexivity.
Qed.

Lemma missing_fields_nil (form : form_data) :
  (forall k, In k required_fields -> truthy (form_get form k) = true) ->
  missing_fields (course_data form) = [].
Proof.
  intro H. rewrite missing_fields_filter.
  induction required_fields as [|k ks IH]; simpl; [reflexivity|].
  rewrite (H k) by (now left). simpl. apply IH.
  intros k' Hk'. apply H. now right.
Qed.

Lemma missing_fields_cons (form : form_data) :
  (exists k, In k required_fields /\ truthy (form_get form k) = false) ->
  missing_fields (course_data form) <> [].
Proof.
  intros (k & Hk & Hf) E.
  assert (Hin : In k (missing_fields (course_data form))).
  { rewrite missing_fields_filter. apply filter_In. now rewrite Hf. }
  rewrite E in Hin. exact Hin.
Qed.

(** ** Creating a course *)

Lemma add_course_invalid_run (form : form_data) (st : state) :
  missing_fields (course_data form) <> [] ->
  add_course "POST" form st
  = (Ok (redirect "add_course"),
     mk_state (course_file st) (route_bump r_add_course (route_counts st))
              (error_bump e_missing_fields (error_counts st)) (fs_trace st)
              (span_events st
               ++ [validation_failed (missing_fields (course_data form))])
              (flashes st
               ++ [("The following fields are required: "
                    ++ join_comma (missing_fields (course_data form)),
                    "error")])).
Proof.
  intro H. unfold add_course, bind, incr_route. rewrite String.eqb_refl.
  destruct (missing_fields (course_data form)) as [|k ks];
    [now elim H | reflexivity].
Qed.

Lemma add_course_valid_run (form : form_data) (st : state) (l : list course) :
  missing_fields (course_data form) = [] ->
  stored st = Some l ->
  add_course "POST" form st
  = match first_with_code (c_code (course_data form)) l with
    | Some _ =>
        (Ok (redirect "add_course"),
         mk_state (course_file st) (route_bump r_add_course (route_counts st))
                  (error_bump e_duplicate_code (error_counts st))
                  (fs_trace st ++ load_ops (course_file st))
                  (span_events st
                   ++ [duplicate_course_code (c_code (course_data form))])
                  (flashes st
                   ++ [("A course with the code '"
                        ++ py_str (c_code (course_data form))
                        ++ "' already exists.", "error")]))
    | None =>
        (Ok (redirect "course_catalog"),
         mk_state (Holds (l ++ [course_data form]))
                  (route_bump r_add_course (route_counts st))
                  (error_counts st)
                  (fs_trace st ++ load_ops (course_file st)
                   ++ load_ops (course_file st) ++ [OpenWrite])
                  (span_events st ++ [course_added (course_data form)])
                  (flashes st ++ [("Course added successfully!", "success")]))
    end.
Proof.
  intros Hm H. unfold add_course, bind, incr_route.
  rewrite String.eqb_refl, Hm. cbv beta iota.
  rewrite (load_courses_stored _ l) by exact H.
  destruct (first_with_code (c_code (course_data form)) l) as [c|] eqn:F.
  - reflexivity.
  - unfold course_truthy. cbv iota.
    rewrite (save_courses_run _ l) by exact H.
    unfold traced; simpl. now rewrite <- app_assoc.
Qed.

Lemma add_course_get_run (method : string) (form : form_data) (st : state) :
  String.eqb method "POST" = false ->
  add_course method form st
  = (Ok (render_template "add_course.html" no_args),
     mk_state (course_file st) (route_bump r_add_course (route_counts st))
              (error_counts st) (fs_trace st)
              (span_events st ++ [add_course_page_accessed]) (flashes st)).
Proof.
  intro H. unfold add_course, bind, incr_route. now rewrite H.
Qed.

(** C1. A form whose four required fields are non-empty and whose code
    no stored course carries is accepted: [add_course] redirects to the
    catalog after a [course_added] event and the success message (the
    created outcome), and [course_details] on that code then renders the
    very dictionary built from the form, each of whose nine entries is
    what the form held under that key. *)
Theorem add_course_then_course_details
  (st : state) (l : list course) (form : form_data) (code : string) :
  stored st = Some l ->
  (forall k, In k required_fields -> truthy (form_get form k) = true) ->
  form_get form "code" = Some code ->
  (forall c, In c l -> c_code c <> Some code) ->
  exists st1 st2,
    add_course "POST" form st = (Ok (redirect "course_catalog"), st1) /\
    span_events st1
    = (span_events st ++ [course_added (course_data form)])%list /\
    flashes st1
    = (flashes st ++ [("Course added successfully!", "success")])%list /\
    stored st1 = Some (l ++ [course_data form])%list /\
    course_details code st1
    = (Ok (render_template "course_details.html"
                           (with_course (course_data form))), st2) /\
    (forall k, In k (required_fields ++ optional_fields)%list ->
               course_get (course_data form) k = Some (form_get form k)).
Proof.
  intros H Hv Hc Hu.
  assert (Hn : first_with_code (c_code (course_data form)) l = None).
  { apply first_with_code_none. simpl. now rewrite Hc. }
  rewrite (add_course_valid_run form st l (missing_fields_nil form Hv) H), Hn.
  eexists. eexists. split; [reflexivity|]. simpl.
  repeat (split; [reflexivity|]). split.
  - rewrite (course_details_run _ (l ++ [course_data form]) code)
      by reflexivity.
    assert (F : first_with_code (Some code) (l ++ [course_data form])
                = Some (course_data form)).
    { apply first_with_code_split. exists l, []. now repeat split. }
    rewrite F. reflexivity.
  - intros k Hk. simpl in Hk.
    repeat (destruct Hk as [<-|Hk]; [reflexivity|]). destruct Hk.
Qed.

Lemma add_course_then_course_details_witness :
  stored (state_with [cs101]) = Some [cs101] /\
  (forall k, In k required_fields ->
             truthy (form_get algorithms_form k) = true) /\
  form_get algorithms_form "code" = Some "CS301" /\
  (forall c, In c [cs101] -> c_code c <> Some "CS301") /\
  exists st1 st2,
    add_course "POST" algorithms_form (state_with [cs101])
    = (Ok (redirect "course_catalog"), st1) /\
    span_events st1
    = (span_events (state_with [cs101])
       ++ [course_added (course_data algorithms_form)])%list /\
    flashes st1
    = (flashes (state_with [cs101])
       ++ [("Course added successfully!", "success")])%list /\
    stored st1 = Some ([cs101] ++ [course_data algorithms_form])%list /\
    course_details "CS301" st1
    = (Ok (render_template "course_details.html"
                           (with_course (course_data algorithms_form))), st2) /\
    (forall k, In k (required_fields ++ optional_fields)%list ->
               course_get (course_data algorithms_form) k
               = Some (form_get algorithms_form k)).
Proof.
  assert (Hv : forall k, In k required_fields ->
                         truthy (form_get algorithms_form k) = true).
  { intros k Hk. simpl in Hk.
    repeat (destruct Hk as [<-|Hk]; [reflexivity|]). destruct Hk. }
  assert (Hu : forall c, In c [cs101] -> c_code c <> Some "CS301").
  { intros c [<-|[]]. discriminate. }
  split; [reflexivity|]. split; [exact Hv|]. split; [reflexivity|].
  split; [exact Hu|].
  exact (add_course_then_course_details
           (state_with [cs101]) [cs101] algorithms_form "CS301"
           eq_refl Hv eq_refl Hu).
Defined.

(** C2. When a required field is absent or empty, [add_course] answers
    with the validation failure: a redirect to the form after a
    [validation_failed] event listing the required fields whose value is
    [None] or the empty string, in the order [name], [code],
    [instructor], [semester], and nothing else; the catalog file keeps
    its contents and is not even accessed. *)
Theorem add_course_missing_fields (st : state) (form : form_data) :
  (exists k, In k required_fields /\ truthy (form_get form k) = false) ->
  exists st' missing,
    add_course "POST" form st = (Ok (redirect "add_course"), st') /\
    span_events st' = (span_events st ++ [validation_failed missing])%list /\
    missing
    = filter (fun k => negb (truthy (form_get form k)))
             ["name"; "code"; "instructor"; "semester"] /\
    (forall k, In k missing <->
               In k required_fields /\
               (form_get form k = None \/ form_get form k = Some "")) /\
    course_file st' = course_file st /\
    fs_trace st' = fs_trace st.
Proof.
  intro H.
  rewrite (add_course_invalid_run form st (missing_fields_cons form H)).
  eexists. eexists. split; [reflexivity|]. simpl.
  split; [reflexivity|]. split; [apply missing_fields_filter|].
  split; [|split; reflexivity].
  intro k. rewrite missing_fields_filter, filter_In, negb_true_iff.
  now rewrite truthy_false.
Qed.

Lemma add_course_missing_fields_witness :
  (exists k, In k required_fields /\
             truthy (form_get nameless_form k) = false) /\
  exists st' missing,
    add_course "POST" nameless_form (state_with [cs101])
    = (Ok (redirect "add_course"), st') /\
    span_events st'
    = (span_events (state_with [cs101]) ++ [validation_failed missing])%list /\
    missing
    = filter (fun k => negb (truthy (form_get nameless_form k)))
             ["name"; "code"; "instructor"; "semester"] /\
    (forall k, In k missing <->
               In k required_fields /\
               (form_get nameless_form k = None \/
                form_get nameless_form k = Some "")) /\
    course_file st' = course_file (state_with [cs101]) /\
    fs_trace st' = fs_trace (state_with [cs101]).
Proof.
  assert (H : exists k, In k required_fields /\
                        truthy (form_get nameless_form k) = false).
  { exists "name". split; [simpl; auto | reflexivity]. }
  split; [exact H|].
  exact (add_course_missing_fields (state_with [cs101]) nameless_form H).
Defined.

(** C3. When all required fields are non-empty and some stored course
    has exactly the submitted code, [add_course] answers with the
    duplicate outcome: a redirect to the form after a
    [duplicate_course_code] event carrying that code; the catalog file
    keeps its contents and is never opened for writing. *)
Theorem add_course_duplicate_code
  (st : state) (l : list course) (form : form_data) (code : string) :
  stored st = Some l ->
  (forall k, In k required_fields -> truthy (form_get form k) = true) ->
  form_get form "code" = Some code ->
  (exists c, In c l /\ c_code c = Some code) ->
  exists st',
    add_course "POST" form st = (Ok (redirect "add_course"), st') /\
    span_events st'
    = (span_events st ++ [duplicate_course_code (Some code)])%list /\
    course_file st' = course_file st /\
    stored st' = Some l /\
    (exists ops, fs_trace st' = (fs_trace st ++ ops)%list /\
                 ~ In OpenWrite ops) /\
    error_at e_duplicate_code (error_counts st')
    = error_at e_duplicate_code (error_counts st) + 1.
Proof.
  intros H Hv Hc (c & Hin & Hcc).
  rewrite (add_course_valid_run form st l (missing_fields_nil form Hv) H).
  destruct (first_with_code (c_code (course_data form)) l) as [d|] eqn:F.
  - eexists. split; [reflexivity|]. simpl. rewrite Hc.
    repeat split; try assumption.
    exists (load_ops (course_file st)). split; [reflexivity|].
    apply load_ops_read_only.
  - exfalso. apply (proj1 (first_with_code_none _ _) F c Hin).
    simpl. now rewrite Hc.
Qed.

Lemma add_course_duplicate_code_witness :
  stored (state_with [cs101; cs301]) = Some [cs101; cs301] /\
  (forall k, In k required_fields -> truthy (form_get clash_form k) = true) /\
  form_get clash_form "code" = Some "CS301" /\
  (exists c, In c [cs101; cs301] /\ c_code c = Some "CS301") /\
  exists st',
    add_course "POST" clash_form (state_with [cs101; cs301])
    = (Ok (redirect "add_course"), st') /\
    span_events st'
    = (span_events (state_with [cs101; cs301])
       ++ [duplicate_course_code (Some "CS301")])%list /\
    course_file st' = course_file (state_with [cs101; cs301]) /\
    stored st' = Some [cs101; cs301] /\
    (exists ops,
        fs_trace st' = (fs_trace (state_with [cs101; cs301]) ++ ops)%list /\
        ~ In OpenWrite ops) /\
    error_at e_duplicate_code (error_counts st')
    = error_at e_duplicate_code (error_counts (state_with [cs101; cs301])) + 1.
Proof.
  assert (Hv : forall k, In k required_fields ->
                         truthy (form_get clash_form k) = true).
  { intros k Hk. simpl in Hk.
    repeat (destruct Hk as [<-|Hk]; [reflexivity|]). destruct Hk. }
  assert (Hd : exists c, In c [cs101; cs301] /\ c_code c = Some "CS301").
  { exists cs301. split; [simpl; auto | reflexivity]. }
  split; [reflexivity|]. split; [exact Hv|]. split; [reflexivity|].
  split; [exact Hd|].
  exact (add_course_duplicate_code
           (state_with [cs101; cs301]) [cs101; cs301] clash_form "CS301"
           eq_refl Hv eq_refl Hd).
Defined.

(** ** Counters *)

(** Everything a handler does after its first statement leaves the
    route counters alone and can only raise error counters. *)
Ltac same_counters := split; [reflexivity | intro; simpl; lia].

Lemma quiet_refl (st : state) : quiet st st.
Proof. split; [reflexivity | intro k; lia]. Qed.

Lemma quiet_trans (st1 st2 st3 : state) :
  quiet st1 st2 -> quiet st2 st3 -> quiet st1 st3.
Proof.
  intros [R1 E1] [R2 E2]. split; [congruence|].
  intro k. specialize (E1 k). specialize (E2 k). lia.
Qed.

Lemma preserves_ret {A : Type} (a : A) : preserves quiet (ret a).
Proof. intro st. same_counters. Qed.

Lemma preserves_bind {A B : Type} (m : M A) (f : A -> M B) :
  preserves quiet m -> (forall a, preserves quiet (f a)) ->
  preserves quiet (bind m f).
Proof.
  intros Hm Hf st. unfold bind. specialize (Hm st).
  destruct (m st) as [[a|e] st']; simpl in *; [|exact Hm].
  exact (quiet_trans _ _ _ Hm (Hf a st')).
Qed.

Lemma preserves_log_fs (op : fs_op) : preserves quiet (log_fs op).
Proof. intro st. same_counters. Qed.

Lemma preserves_add_event (e : span_event) : preserves quiet (add_event e).
Proof. intro st. same_counters. Qed.

Lemma preserves_flash (m c : string) : preserves quiet (flash m c).
Proof. intro st. same_counters. Qed.

Lemma error_bump_le (k j : error_kind) (ec : error_counters) :
  error_at j ec <= error_at j (error_bump k ec).
Proof. destruct k, j, ec; simpl; lia. Qed.

Lemma preserves_incr_error (k : error_kind) :
  preserves quiet (incr_error k).
Proof. intro st. split; [reflexivity | intro j; apply error_bump_le]. Qed.

Lemma preserves_load_courses : preserves quiet load_courses.
Proof.
  intro st. destruct st as [[| |] rc ec tr ev fl]; same_counters.
Qed.

Lemma preserves_save_courses (data : course) :
  preserves quiet (save_courses data).
Proof.
  intro st. destruct st as [[| |] rc ec tr ev fl]; same_counters.
Qed.

Create HintDb handlers.
#[local] Hint Resolve preserves_ret preserves_log_fs preserves_add_event
  preserves_flash preserves_incr_error preserves_load_courses
  preserves_save_courses : handlers.

(** Walks through the statements and tests of a handler body. *)
Ltac preserve :=
  repeat first
    [ solve [auto with handlers]
    | apply preserves_bind; [ | intros ? ]
    | match goal with
      | |- preserves _ (if ?b then _ else _) => destruct b
      | |- preserves _ (match ?x with _ => _ end) => destruct x
      end ].

Lemma route_bump_at (k j : route_name) (rc : route_counters) :
  route_at j (route_bump k rc)
  = route_at j rc + (if route_name_eqb j k then 1 else 0).
Proof. destruct k, j, rc; simpl; lia. Qed.

Lemma incr_route_first {A : Type} (k : route_name) (f : unit -> M A) :
  preserves quiet (f tt) ->
  forall st,
    route_counts (snd (bind (incr_route k) f st))
    = route_bump k (route_counts st) /\
    forall j, error_at j (error_counts st)
              <= error_at j (error_counts (snd (bind (incr_route k) f st))).
Proof.
  intros Hf st. unfold bind, incr_route.
  destruct (Hf (mk_state (course_file st) (route_bump k (route_counts st))
                         (error_counts st) (fs_trace st) (span_events st)
                         (flashes st))) as [R E].
  split; [exact R | exact E].
Qed.

Lemma dispatch_counts (r : request) (st : state) :
  route_counts (snd (dispatch r st))
  = route_bump (route_of r) (route_counts st) /\
  forall j, error_at j (error_counts st)
            <= error_at j (error_counts (snd (dispatch r st))).
Proof.
  destruct r; simpl dispatch; simpl route_of.
  - apply incr_route_first. preserve.
  - apply incr_route_first. preserve.
  - apply incr_route_first. unfold course_missing. preserve.
  - apply incr_route_first. cbv zeta. preserve.
Qed.

(** C9. Whatever the request and the state, and whether or not the
    handler raises, dispatching adds exactly one to the counter of the
    request's own route and leaves the other route counters as they
    were; over any sequence of requests no route counter and no error
    counter ever goes down. *)
Theorem counters_monotone :
  (forall r st,
      route_at (route_of r) (route_counts (snd (dispatch r st)))
      = route_at (route_of r) (route_counts st) + 1 /\
      forall k, k <> route_of r ->
                route_at k (route_counts (snd (dispatch r st)))
                = route_at k (route_counts st)) /\
  (forall rs st,
      (forall k, route_at k (route_counts st)
                 <= route_at k (route_counts (serve rs st))) /\
      (forall k, error_at k (error_counts st)
                 <= error_at k (error_counts (serve rs st)))).
Proof.
  split.
  - intros r st. destruct (dispatch_counts r st) as [R _]. rewrite R. split.
    + rewrite route_bump_at. now destruct (route_of r).
    + intros k Hk. rewrite route_bump_at.
      destruct k, (route_of r); simpl; try lia; now elim Hk.
  - induction rs as [|r rs IH]; intro st; simpl.
    + split; intro k; lia.
    + destruct (IH (snd (dispatch r st))) as [IHr IHe].
      destruct (dispatch_counts r st) as [R E]. split; intro k.
      * specialize (IHr k). rewrite R, route_bump_at in IHr.
        destruct (route_name_eqb k (route_of r)); lia.
      * specialize (IHe k). specialize (E k). lia.
Qed.

(** ** Uniqueness of codes *)

Lemma add_course_stored
  (method : string) (form : form_data) (st : state) (l : list course) :
  stored st = Some l ->
  exists l',
    stored (snd (add_course method form st)) = Some l' /\
    (l' = l \/
     exists c, l' = (l ++ [c])%list /\ ~ In (c_code c) (map c_code l)) /\
    (NoDup (map c_code l) -> NoDup (map c_code l')).
Proof.
  intro H. destruct (String.eqb method "POST") eqn:Em.
  - apply String.eqb_eq in Em. subst method.
    destruct (missing_fields (course_data form)) as [|k ks] eqn:Mf.
    + rewrite (add_course_valid_run form st l Mf H).
      destruct (first_with_code (c_code (course_data form)) l) as [d|] eqn:F.
      * exists l. simpl. auto.
      * assert (Hn : ~ In (c_code (course_data form)) (map c_code l)).
        { rewrite in_map_iff. intros (x & Hx & Hin).
          exact (proj1 (first_with_code_none _ _) F x Hin Hx). }
        exists (l ++ [course_data form])%list. simpl.
        split; [reflexivity|]. split.
        -- right. now exists (course_data form).
        -- intro Hnd. now apply NoDup_map_snoc.
    + rewrite (add_course_invalid_run form st) by (rewrite Mf; discriminate).
      exists l. simpl. auto.
  - rewrite (add_course_get_run method form st Em). exists l. simpl. auto.
Qed.

(** C4. A call of [add_course], with any method and any form, leaves the
    catalog either as it was or with one course appended whose code no
    stored course had; so codes that were pairwise distinct before the
    call are pairwise distinct after it. *)
Theorem add_course_keeps_codes_unique
  (method : string) (form : form_data) (st : state) (l : list course) :
  stored st = Some l ->
  NoDup (map c_code l) ->
  exists l',
    stored (snd (add_course method form st)) = Some l' /\
    NoDup (map c_code l') /\
    (l' = l \/
     exists c, l' = (l ++ [c])%list /\
               forall x, In x l -> c_code x <> c_code c).
Proof.
  intros H Hnd.
  destruct (add_course_stored method form st l H) as (l' & E & Hl' & Hk).
  exists l'. split; [exact E|]. split; [exact (Hk Hnd)|].
  destruct Hl' as [->|(c & -> & Hc)]; [now left|].
  right. exists c. split; [reflexivity|].
  intros x Hx Ex. apply Hc. rewrite <- Ex. now apply in_map.
Qed.

Lemma add_course_keeps_codes_unique_witness :
  stored (state_with [cs101]) = Some [cs101] /\
  NoDup (map c_code [cs101]) /\
  exists l',
    stored (snd (add_course "POST" algorithms_form (state_with [cs101])))
    = Some l' /\
    NoDup (map c_code l') /\
    (l' = [cs101] \/
     exists c, l' = ([cs101] ++ [c])%list /\
               forall x, In x [cs101] -> c_code x <> c_code c).
Proof.
  assert (Hnd : NoDup (map c_code [cs101])).
  { simpl. constructor; [intros []|constructor]. }
  split; [reflexivity|]. split; [exact Hnd|].
  exact (add_course_keeps_codes_unique
           "POST" algorithms_form (state_with [cs101]) [cs101] eq_refl Hnd).
Defined.

(** The other handlers never write the catalog, so the codes stay
    pairwise distinct over any sequence of requests. *)
Lemma dispatch_stored (r : request) (st : state) (l : list course) :
  stored st = Some l ->
  NoDup (map c_code l) ->
  exists l',
    stored (snd (dispatch r st)) = Some l' /\ NoDup (map c_code l').
Proof.
  intros H Hnd. destruct r as [| |code|method form]; simpl dispatch.
  - exists l. split; [exact H|exact Hnd].
  - rewrite (course_catalog_run st l H). exists l. split; [exact H|exact Hnd].
  - rewrite (course_details_run st l code H). exists l.
    split; [|exact Hnd].
    destruct (first_with_code (Some code) l); exact H.
  - destruct (add_course_stored method form st l H) as (l' & E & _ & Hk).
    exists l'. split; [exact E|exact (Hk Hnd)].
Qed.

Lemma serve_unique_codes (rs : list request) :
  forall st l,
    stored st = Some l ->
    NoDup (map c_code l) ->
    exists l', stored (serve rs st) = Some l' /\ NoDup (map c_code l').
Proof.
  induction rs as [|r rs IH]; intros st l H Hnd; simpl.
  - now exists l.
  - destruct (dispatch_stored r st l H Hnd) as (l1 & H1 & Hnd1).
    exact (IH _ l1 H1 Hnd1).
Qed.

(** ** Order of the checks and optional fields *)

(** C10. A form lacking a required field gets the validation failure
    whatever the catalog holds, a stored course with the submitted code
    included: the event added is [validation_failed] with a non-empty
    list, [error_counts['duplicate_code']] keeps its value while
    [error_counts['missing_fields']] grows by one, and no access to the
    catalog file is made, so the duplicate check is never reached. *)
Theorem validation_precedes_duplicate_check
  (st : state) (form : form_data) :
  (exists k, In k required_fields /\ truthy (form_get form k) = false) ->
  exists st' missing,
    add_course "POST" form st = (Ok (redirect "add_course"), st') /\
    span_events st' = (span_events st ++ [validation_failed missing])%list /\
    missing <> [] /\
    error_at e_duplicate_code (error_counts st')
    = error_at e_duplicate_code (error_counts st) /\
    error_at e_missing_fields (error_counts st')
    = error_at e_missing_fields (error_counts st) + 1 /\
    fs_trace st' = fs_trace st /\
    course_file st' = course_file st.
Proof.
  intro H. pose proof (missing_fields_cons form H) as Hm.
  rewrite (add_course_invalid_run form st Hm).
  eexists. eexists. split; [reflexivity|]. simpl.
  split; [reflexivity|]. split; [exact Hm|]. repeat split.
Qed.

Lemma validation_precedes_duplicate_check_witness :
  (exists c, In c [cs101; cs301] /\
             c_code c = form_get nameless_form "code") /\
  (exists k, In k required_fields /\
             truthy (form_get nameless_form k) = false) /\
  exists st' missing,
    add_course "POST" nameless_form (state_with [cs101; cs301])
    = (Ok (redirect "add_course"), st') /\
    span_events st'
    = (span_events (state_with [cs101; cs301])
       ++ [validation_failed missing])%list /\
    missing <> [] /\
    error_at e_duplicate_code (error_counts st')
    = error_at e_duplicate_code (error_counts (state_with [cs101; cs301])) /\
    error_at e_missing_fields (error_counts st')
    = error_at e_missing_fields (error_counts (state_with [cs101; cs301]))
      + 1 /\
    fs_trace st' = fs_trace (state_with [cs101; cs301]) /\
    course_file st' = course_file (state_with [cs101; cs301]).
Proof.
  assert (H : exists k, In k required_fields /\
                        truthy (form_get nameless_form k) = false).
  { exists "semester". split; [simpl; auto 6 | reflexivity]. }
  split; [exists cs301; split; [simpl; auto | reflexivity]|].
  split; [exact H|].
  exact (validation_precedes_duplicate_check
           (state_with [cs101; cs301]) nameless_form H).
Defined.

(** C8, as the claim states it, fails: a form that does not send
    [schedule] yields a candidate whose [schedule] is [None], and that is
    what the catalog then holds. *)
Lemma absent_optional_field_not_empty_string :
  In "schedule" optional_fields /\
  form_get algorithms_form "schedule" = None /\
  course_get (course_data algorithms_form) "schedule" <> Some (Some "") /\
  exists st' c,
    add_course "POST" algorithms_form initial_state
    = (Ok (redirect "course_catalog"), st') /\
    course_file st' = Holds [c] /\
    course_get c "schedule" = Some None.
Proof.
  split; [simpl; auto|]. split; [reflexivity|]. split; [discriminate|].
  exists (snd (add_course "POST" algorithms_form initial_state)),
         (course_data algorithms_form).
  split; [|split]; vm_compute; reflexivity.
Qed.

(** C8, amended. The candidate holds under each optional key what
    [request.form.get] returned: [None] when the field is absent (never
    the empty string), the submitted string otherwise; and that
    candidate is the record appended to the catalog when the form is
    accepted. *)
Theorem optional_fields_as_submitted
  (st : state) (l : list course) (form : form_data) (code k : string) :
  In k optional_fields ->
  course_get (course_data form) k = Some (form_get form k) /\
  (form_get form k = None ->
   course_get (course_data form) k = Some None /\
   course_get (course_data form) k <> Some (Some "")) /\
  (stored st = Some l ->
   (forall j, In j required_fields -> truthy (form_get form j) = true) ->
   form_get form "code" = Some code ->
   (forall c, In c l -> c_code c <> Some code) ->
   exists st' c,
     add_course "POST" form st = (Ok (redirect "course_catalog"), st') /\
     stored st' = Some (l ++ [c])%list /\
     course_get c k = Some (form_get form k)).
Proof.
  intro Hk.
  assert (G : course_get (course_data form) k = Some (form_get form k)).
  { simpl in Hk. repeat (destruct Hk as [<-|Hk]; [reflexivity|]).
    destruct Hk. }
  split; [exact G|]. split.
  - intro Hn. rewrite G, Hn. split; [reflexivity|discriminate].
  - intros H Hv Hc Hu.
    assert (Hn : first_with_code (c_code (course_data form)) l = None).
    { apply first_with_code_none. simpl. now rewrite Hc. }
    rewrite (add_course_valid_run form st l (missing_fields_nil form Hv) H), Hn.
    eexists. exists (course_data form). split; [reflexivity|].
    split; [reflexivity|exact G].
Qed.

Lemma optional_fields_as_submitted_witness :
  In "schedule" optional_fields /\
  course_get (course_data algorithms_form) "schedule"
  = Some (form_get algorithms_form "schedule") /\
  (course_get (course_data algorithms_form) "schedule" = Some None /\
   course_get (course_data algorithms_form) "schedule" <> Some (Some "")) /\
  exists st' c,
    add_course "POST" algorithms_form (state_with [cs101])
    = (Ok (redirect "course_catalog"), st') /\
    stored st' = Some ([cs101] ++ [c])%list /\
    course_get c "schedule" = Some (form_get algorithms_form "schedule").
Proof.
  assert (Hk : In "schedule" optional_fields) by (simpl; auto).
  destruct (optional_fields_as_submitted
              (state_with [cs101]) [cs101] algorithms_form "CS301" "schedule"
              Hk) as (G & Hnone & Hstored).
  split; [exact Hk|]. split; [exact G|]. split; [exact (Hnone eq_refl)|].
  apply Hstored.
  - reflexivity.
  - intros j Hj. simpl in Hj.
    repeat (destruct Hj as [<-|Hj]; [reflexivity|]). destruct Hj.
  - reflexivity.
  - intros c [<-|[]]. discriminate.
Defined.

(** ** The example scenario, run from a fresh process *)

Example scenario_events :
  span_events
    (serve [req_add_course "POST" algorithms_form;
            req_course "CS301";
            req_add_course "POST" clash_form;
            req_add_course "POST" nameless_form;
            req_catalog]
           initial_state)
  = [course_added cs301;
     course_found cs301;
     duplicate_course_code (Some "CS301");
     validation_failed ["name"; "semester"]].
Proof. vm_compute. reflexivity. Qed.

Example scenario_counters :
  let st := serve [req_add_course "POST" algorithms_form;
                   req_course "CS301";
                   req_add_course "POST" clash_form;
                   req_add_course "POST" nameless_form;
                   req_catalog]
                  initial_state in
  route_counts st = mk_route_counters 0 1 3 1 /\
  error_counts st = mk_error_counters 1 1 /\
  course_file st = Holds [cs301].
Proof. vm_compute. repeat split. Qed.

(** A catalog file that cannot be parsed makes the listing raise, after
    its route counter was incremented. *)
Example unparsable_catalog :
  let st := mk_state Unparsable (mk_route_counters 0 0 0 0)
                     (mk_error_counters 0 0) [] [] [] in
  fst (course_catalog st) = Raise JSONDecodeError /\
  route_at r_catalog (route_counts (snd (course_catalog st))) = 1.
Proof. vm_compute. split; reflexivity. Qed.

(** ** Every request falls in one of the cases of [handled] *)

Lemma stored_cases (st : state) :
  (exists l, stored st = Some l) \/ course_file st = Unparsable.
Proof.
  unfold stored. destruct (course_file st) as [|l|]; eauto.
Qed.

Lemma stored_load_result (st : state) (l : list course) :
  stored st = Some l <-> load_result (course_file st) = Ok l.
Proof.
  unfold stored, load_result.
  destruct (course_file st); split; intro H; inversion H; reflexivity.
Qed.

Lemma load_courses_raise (st : state) :
  course_file st = Unparsable ->
  load_courses st
  = (Raise JSONDecodeError, traced [PathExists; OpenRead] st).
Proof.
  destruct st as [f rc ec tr ev fl]; simpl. intros ->.
  unfold load_courses, os_path_exists, json_load, bind, traced; simpl.
  now rewrite <- app_assoc.
Qed.

Lemma handled_state (r : request) (st : state) (res : result response)
  (st1 st2 : state) :
  handled r st res st1 -> st1 = st2 -> handled r st res st2.
Proof. now intros H <-. Qed.

(** Brings a state written with [after] to its six components. *)
Ltac by_state :=
  unfold after, rewritten, traced; simpl; rewrite ?app_nil_r; reflexivity.

Lemma course_catalog_raise (st : state) :
  course_file st = Unparsable ->
  course_catalog st
  = (Raise JSONDecodeError,
     after st r_catalog [] [PathExists; OpenRead] [] []).
Proof.
  intro H. unfold course_catalog, bind, incr_route.
  rewrite load_courses_raise by exact H. f_equal. by_state.
Qed.

Lemma course_details_raise (st : state) (code : string) :
  course_file st = Unparsable ->
  course_details code st
  = (Raise JSONDecodeError,
     after st r_course_details [] [PathExists; OpenRead] [] []).
Proof.
  intro H. unfold course_details, bind, incr_route.
  rewrite load_courses_raise by exact H. f_equal. by_state.
Qed.

Lemma add_course_raise (st : state) (form : form_data) :
  missing_fields (course_data form) = [] ->
  course_file st = Unparsable ->
  add_course "POST" form st
  = (Raise JSONDecodeError,
     after st r_add_course [] [PathExists; OpenRead] [] []).
Proof.
  intros Hm H. unfold add_course, bind, incr_route.
  rewrite String.eqb_refl, Hm. cbv beta iota.
  rewrite load_courses_raise by exact H. f_equal. by_state.
Qed.

Lemma dispatch_handled (r : request) (st : state) :
  handled r st (fst (dispatch r st)) (snd (dispatch r st)).
Proof.
  destruct r as [| |code|method form]; simpl dispatch.
  - eapply handled_state; [apply handled_index | by_state].
  - destruct (stored_cases st) as [[l H]|H].
    + rewrite (course_catalog_run st l H).
      eapply handled_state; [apply (handled_catalog st l H) | by_state].
    + rewrite (course_catalog_raise st H). now apply handled_catalog_raise.
  - destruct (stored_cases st) as [[l H]|H].
    + rewrite (course_details_run st l code H).
      destruct (first_with_code (Some code) l) as [c|] eqn:F.
      * eapply handled_state;
          [apply (handled_details_found st l code c H F) | by_state].
      * eapply handled_state;
          [apply (handled_details_missing st l code H F) | by_state].
    + rewrite (course_details_raise st code H).
      now apply handled_details_raise.
  - destruct (String.eqb method "POST") eqn:Em.
    + apply String.eqb_eq in Em. subst method.
      destruct (missing_fields (course_data form)) as [|k ks] eqn:Mf.
      * destruct (stored_cases st) as [[l H]|H].
        -- rewrite (add_course_valid_run form st l Mf H).
           destruct (first_with_code (c_code (course_data form)) l)
             as [d|] eqn:F.
           ++ eapply handled_state;
                [apply (handled_add_duplicate st l form d Mf H F) | by_state].
           ++ eapply handled_state;
                [apply (handled_add_created st l form Mf H F) | by_state].
        -- rewrite (add_course_raise st form Mf H).
           now apply handled_add_raise.
      * assert (Hm : missing_fields (course_data form) <> [])
          by (rewrite Mf; discriminate).
        rewrite (add_course_invalid_run form st Hm).
        eapply handled_state; [apply (handled_add_invalid st form Hm)|].
        by_state.
    + rewrite (add_course_get_run method form st Em).
      eapply handled_state;
        [apply (handled_add_page st method form Em) | by_state].
Qed.

(** Splits on the case of [handled] a dispatch falls in. *)
Ltac dispatch_cases r st :=
  let Hh := fresh "Hh" in
  let res := fresh "res" in
  let st' := fresh "st'" in
  pose proof (dispatch_handled r st) as Hh;
  remember (fst (dispatch r st)) as res;
  remember (snd (dispatch r st)) as st';
  destruct Hh.

Lemma skipn_length_app {A : Type} (a b : list A) :
  skipn (length a) (a ++ b) = b.
Proof. induction a as [|x a IH]; simpl; [reflexivity | exact IH]. Qed.

Lemma snoc_neq {A : Type} (l : list A) (a : A) : (l ++ [a])%list <> l.
Proof.
  intro E. apply (f_equal (@length A)) in E.
  rewrite length_app in E. simpl in E. lia.
Qed.

Lemma missing_fields_complete (c : course) :
  missing_fields c = [] <-> complete c.
Proof.
  unfold missing_fields, complete, items. simpl.
  rewrite ?andb_true_r, ?andb_false_r.
  destruct (truthy (c_name c)), (truthy (c_code c)),
    (truthy (c_instructor c)), (truthy (c_semester c)); simpl;
    split; intro H; try discriminate; try reflexivity; auto;
    destruct H as (H1 & H2 & H3 & H4); discriminate.
Qed.

Lemma created_changes_file (st : state) (l : list course) (d : course) :
  stored st = Some l -> Holds (l ++ [d]) <> course_file st.
Proof.
  unfold stored. intros H E. rewrite <- E in H.
  inversion H as [E']. exact (snoc_neq l d E').
Qed.

(** ** What changes the catalog file *)

(** The catalog file changes, or is opened for writing, only when a
    POST to [add_course] brings a form whose required fields are all
    non-empty and whose code no stored course has; the answer is then
    the redirect to the catalog and the file holds the former courses
    followed by the new one. *)
Theorem only_accepted_forms_write (r : request) (st : state) :
  course_file (snd (dispatch r st)) <> course_file st \/
  In OpenWrite
     (skipn (length (fs_trace st)) (fs_trace (snd (dispatch r st)))) ->
  exists form l,
    r = req_add_course "POST" form /\
    stored st = Some l /\
    complete (course_data form) /\
    (forall x, In x l -> c_code x <> c_code (course_data form)) /\
    fst (dispatch r st) = Ok (redirect "course_catalog") /\
    course_file (snd (dispatch r st)) = Holds (l ++ [course_data form]).
Proof.
  dispatch_cases r st;
    try (intros [Hf|Hw];
         [ now elim Hf
         | exfalso; unfold after in Hw; simpl in Hw;
           rewrite skipn_length_app in Hw; simpl in Hw;
           try (apply load_ops_read_only in Hw); intuition discriminate ]).
  intros _. exists form, l. split; [reflexivity|]. split; [assumption|].
  split; [now apply missing_fields_complete|].
  split; [now apply first_with_code_none|]. split; reflexivity.
Qed.

Lemma only_accepted_forms_write_witness :
  (course_file
     (snd (dispatch (req_add_course "POST" algorithms_form)
                    (state_with [cs101])))
   <> course_file (state_with [cs101]) \/
   In OpenWrite
      (skipn (length (fs_trace (state_with [cs101])))
             (fs_trace
                (snd (dispatch (req_add_course "POST" algorithms_form)
                               (state_with [cs101])))))) /\
  exists form l,
    req_add_course "POST" algorithms_form = req_add_course "POST" form /\
    stored (state_with [cs101]) = Some l /\
    complete (course_data form) /\
    (forall x, In x l -> c_code x <> c_code (course_data form)) /\
    fst (dispatch (req_add_course "POST" algorithms_form)
                  (state_with [cs101]))
    = Ok (redirect "course_catalog") /\
    course_file
      (snd (dispatch (req_add_course "POST" algorithms_form)
                     (state_with [cs101])))
    = Holds (l ++ [course_data form]).
Proof.
  assert (H : In OpenWrite
                 (skipn (length (fs_trace (state_with [cs101])))
                        (fs_trace
                           (snd (dispatch
                                   (req_add_course "POST" algorithms_form)
                                   (state_with [cs101])))))).
  { vm_compute. auto 6. }
  split; [right; exact H|].
  apply (only_accepted_forms_write
           (req_add_course "POST" algorithms_form) (state_with [cs101])).
  right. exact H.
Defined.

(** ** Listing *)

Lemma reads_only_file (r : request) (st : state) :
  reads_only r = true -> course_file (snd (dispatch r st)) = course_file st.
Proof.
  intro H. dispatch_cases r st; try reflexivity; discriminate.
Qed.

Lemma course_catalog_fst (st : state) :
  fst (course_catalog st)
  = match load_result (course_file st) with
    | Ok l => Ok (render_template "course_catalog.html" (with_courses l))
    | Raise e => Raise e
    end.
Proof.
  destruct (stored_cases st) as [[l H]|H].
  - rewrite (course_catalog_run st l H).
    apply stored_load_result in H. now rewrite H.
  - rewrite (course_catalog_raise st H), H. reflexivity.
Qed.

(** Listing is repeatable: after any sequence of [index],
    [course_catalog] and [course_details] requests, [course_catalog]
    answers what it would have answered before them, the same list in
    the same order or the same exception, and the file is as it was. *)
Theorem course_catalog_repeatable (rs : list request) (st : state) :
  forallb reads_only rs = true ->
  fst (course_catalog (serve rs st)) = fst (course_catalog st) /\
  course_file (serve rs st) = course_file st.
Proof.
  revert st. induction rs as [|r rs IH]; intros st H; simpl in *.
  - split; reflexivity.
  - apply andb_true_iff in H. destruct H as [Hr Hrs].
    destruct (IH (snd (dispatch r st)) Hrs) as [E1 E2].
    pose proof (reads_only_file r st Hr) as Ef. split.
    + rewrite E1, !course_catalog_fst. now rewrite Ef.
    + now rewrite E2.
Qed.

Lemma course_catalog_repeatable_witness :
  forallb reads_only [req_catalog; req_course "CS999"; req_index] = true /\
  fst (course_catalog
         (serve [req_catalog; req_course "CS999"; req_index]
                (state_with [cs101; cs301])))
  = fst (course_catalog (state_with [cs101; cs301])) /\
  course_file (serve [req_catalog; req_course "CS999"; req_index]
                     (state_with [cs101; cs301]))
  = course_file (state_with [cs101; cs301]).
Proof.
  split; [reflexivity|].
  apply (course_catalog_repeatable
           [req_catalog; req_course "CS999"; req_index]
           (state_with [cs101; cs301])).
  reflexivity.
Defined.

(** ** More on the record store *)

(** Round trip of the store: what [save_courses] wrote is what the next
    [load_courses] returns, the former courses followed by the saved
    one, and loading leaves the file as written. *)
Theorem save_courses_then_load (st : state) (l : list course) (d : course) :
  stored st = Some l ->
  exists st1 st2,
    save_courses d st = (Ok tt, st1) /\
    load_courses st1 = (Ok (l ++ [d])%list, st2) /\
    course_file st2 = course_file st1.
Proof.
  intro H. rewrite (save_courses_run st l d H).
  eexists. eexists. split; [reflexivity|].
  rewrite (load_courses_stored _ (l ++ [d])) by reflexivity.
  split; reflexivity.
Qed.

Lemma save_courses_then_load_witness :
  stored initial_state = Some [] /\
  exists st1 st2,
    save_courses cs301 initial_state = (Ok tt, st1) /\
    load_courses st1 = (Ok ([] ++ [cs301])%list, st2) /\
    course_file st2 = course_file st1.
Proof.
  split; [reflexivity|].
  apply (save_courses_then_load initial_state [] cs301). reflexivity.
Defined.

(** [save_courses] checks nothing: saving a list of records one after
    the other appends them all, in order, whatever their codes; saving
    the same record twice stores it twice. *)
Theorem save_courses_in_sequence (ds : list course) :
  forall st l,
    stored st = Some l ->
    stored (fold_left (fun s d => snd (save_courses d s)) ds st)
    = Some (l ++ ds)%list.
Proof.
  induction ds as [|d ds IH]; intros st l H; simpl.
  - now rewrite app_nil_r.
  - rewrite (IH _ (l ++ [d])%list).
    + now rewrite <- app_assoc.
    + rewrite (save_courses_run st l d H). reflexivity.
Qed.

Lemma save_courses_in_sequence_witness :
  stored (state_with [cs101]) = Some [cs101] /\
  stored (fold_left (fun s d => snd (save_courses d s)) [cs301; cs301]
                    (state_with [cs101]))
  = Some ([cs101] ++ [cs301; cs301])%list.
Proof.
  split; [reflexivity|].
  apply (save_courses_in_sequence [cs301; cs301] (state_with [cs101])).
  reflexivity.
Defined.

(** On a catalog file that cannot be parsed [save_courses] raises from
    its own [load_courses]: the record is not written, the file is not
    opened for writing and keeps its contents. *)
Theorem save_courses_unparsable (st : state) (d : course) :
  course_file st = Unparsable ->
  fst (save_courses d st) = Raise JSONDecodeError /\
  course_file (snd (save_courses d st)) = Unparsable /\
  fs_trace (snd (save_courses d st))
  = (fs_trace st ++ [PathExists; OpenRead])%list.
Proof.
  intro H. unfold save_courses, bind.
  rewrite (load_courses_raise st H). simpl. now rewrite H.
Qed.

Lemma save_courses_unparsable_witness :
  course_file (mk_state Unparsable (mk_route_counters 0 0 0 0)
                        (mk_error_counters 0 0) [] [] []) = Unparsable /\
  fst (save_courses cs301
         (mk_state Unparsable (mk_route_counters 0 0 0 0)
                   (mk_error_counters 0 0) [] [] []))
  = Raise JSONDecodeError /\
  course_file
    (snd (save_courses cs301
            (mk_state Unparsable (mk_route_counters 0 0 0 0)
                      (mk_error_counters 0 0) [] [] [])))
  = Unparsable /\
  fs_trace
    (snd (save_courses cs301
            (mk_state Unparsable (mk_route_counters 0 0 0 0)
                      (mk_error_counters 0 0) [] [] [])))
  = (fs_trace (mk_state Unparsable (mk_route_counters 0 0 0 0)
                        (mk_error_counters 0 0) [] [] [])
     ++ [PathExists; OpenRead])%list.
Proof.
  split; [reflexivity|].
  apply (save_courses_unparsable
           (mk_state Unparsable (mk_route_counters 0 0 0 0)
                     (mk_error_counters 0 0) [] [] []) cs301).
  reflexivity.
Defined.

(** ** A catalog file that cannot be parsed *)

Lemma dispatch_unparsable (r : request) (st : state) :
  course_file st = Unparsable ->
  course_file (snd (dispatch r st)) = Unparsable.
Proof.
  intro H. dispatch_cases r st; try exact H.
  unfold stored in *. rewrite H in *. discriminate.
Qed.

(** No sequence of requests ever replaces a catalog file that cannot be
    parsed: every write is preceded by a load, which raises. *)
Theorem unparsable_never_overwritten (rs : list request) (st : state) :
  course_file st = Unparsable ->
  course_file (serve rs st) = Unparsable.
Proof.
  revert st. induction rs as [|r rs IH]; intros st H; simpl.
  - exact H.
  - apply IH. now apply dispatch_unparsable.
Qed.

Lemma unparsable_never_overwritten_witness :
  course_file (mk_state Unparsable (mk_route_counters 0 0 0 0)
                        (mk_error_counters 0 0) [] [] []) = Unparsable /\
  course_file
    (serve [req_add_course "POST" algorithms_form; req_catalog]
           (mk_state Unparsable (mk_route_counters 0 0 0 0)
                     (mk_error_counters 0 0) [] [] []))
  = Unparsable.
Proof.
  split; [reflexivity|].
  apply (unparsable_never_overwritten
           [req_add_course "POST" algorithms_form; req_catalog]
           (mk_state Unparsable (mk_route_counters 0 0 0 0)
                     (mk_error_counters 0 0) [] [] [])).
  reflexivity.
Defined.



(** ** Outcomes of a POST *)

(** For a POST on a loadable catalog the answer tells whether the
    course was stored.  The redirect to the catalog is given exactly
    when the four required values are non-empty and no stored course
    has the submitted code, and the catalog then gains the candidate at
    its end; in every other case the answer is the redirect back to the
    form and the catalog is what it was. *)
Theorem add_course_outcomes
  (st : state) (l : list course) (form : form_data) :
  stored st = Some l ->
  (fst (add_course "POST" form st) = Ok (redirect "course_catalog") <->
   complete (course_data form) /\
   forall x, In x l -> c_code x <> c_code (course_data form)) /\
  (fst (add_course "POST" form st) = Ok (redirect "course_catalog") /\
   stored (snd (add_course "POST" form st))
   = Some (l ++ [course_data form])%list
   \/
   fst (add_course "POST" form st) = Ok (redirect "add_course") /\
   stored (snd (add_course "POST" form st)) = Some l).
Proof.
  intro H.
  destruct (missing_fields (course_data form)) as [|k ks] eqn:Mf.
  - pose proof (proj1 (missing_fields_complete _) Mf) as Hc.
    rewrite (add_course_valid_run form st l Mf H).
    destruct (first_with_code (c_code (course_data form)) l) as [d|] eqn:F.
    + split; [|right; split; [reflexivity|exact H]].
      split; [discriminate|]. intros [_ Hu]. exfalso.
      apply first_with_code_none in Hu. congruence.
    + split; [|left; split; reflexivity].
      split; [|reflexivity]. intros _. split; [exact Hc|].
      now apply first_with_code_none.
  - assert (Hm : missing_fields (course_data form) <> [])
      by (rewrite Mf; discriminate).
    rewrite (add_course_invalid_run form st Hm).
    split; [|right; split; [reflexivity|exact H]].
    split; [discriminate|]. intros [Hc _]. exfalso.
    apply missing_fields_complete in Hc. congruence.
Qed.

Lemma add_course_outcomes_witness :
  stored (state_with [cs101]) = Some [cs101] /\
  (fst (add_course "POST" algorithms_form (state_with [cs101]))
   = Ok (redirect "course_catalog") <->
   complete (course_data algorithms_form) /\
   forall x, In x [cs101] -> c_code x <> c_code (course_data algorithms_form))
  /\
  (fst (add_course "POST" algorithms_form (state_with [cs101]))
   = Ok (redirect "course_catalog") /\
   stored (snd (add_course "POST" algorithms_form (state_with [cs101])))
   = Some ([cs101] ++ [course_data algorithms_form])%list
   \/
   fst (add_course "POST" algorithms_form (state_with [cs101]))
   = Ok (redirect "add_course") /\
   stored (snd (add_course "POST" algorithms_form (state_with [cs101])))
   = Some [cs101]).
Proof.
  split; [reflexivity|].
  apply (add_course_outcomes (state_with [cs101]) [cs101] algorithms_form).
  reflexivity.
Defined.

(** Submitting an accepted form a second time is refused as a
    duplicate: the second POST redirects back to the form with a
    [duplicate_course_code] event and the catalog keeps a single copy of
    the course. *)
Theorem add_course_twice
  (st : state) (l : list course) (form : form_data) (code : string) :
  stored st = Some l ->
  (forall k, In k required_fields -> truthy (form_get form k) = true) ->
  form_get form "code" = Some code ->
  (forall c, In c l -> c_code c <> Some code) ->
  exists st1 st2,
    add_course "POST" form st = (Ok (redirect "course_catalog"), st1) /\
    add_course "POST" form st1 = (Ok (redirect "add_course"), st2) /\
    span_events st2
    = (span_events st
       ++ [course_added (course_data form);
           duplicate_course_code (Some code)])%list /\
    stored st2 = Some (l ++ [course_data form])%list.
Proof.
  intros H Hv Hc Hu.
  pose proof (missing_fields_nil form Hv) as Mf.
  assert (Hn : first_with_code (c_code (course_data form)) l = None).
  { apply first_with_code_none. simpl. now rewrite Hc. }
  assert (Hs : first_with_code (c_code (course_data form))
                               (l ++ [course_data form])
               = Some (course_data form)).
  { apply first_with_code_split. exists l, [].
    split; [reflexivity|]. split; [reflexivity|].
    now apply first_with_code_none. }
  rewrite (add_course_valid_run form st l Mf H), Hn.
  eexists. eexists. split; [reflexivity|].
  rewrite (add_course_valid_run form _ (l ++ [course_data form]) Mf)
    by reflexivity.
  rewrite Hs. split; [reflexivity|]. simpl.
  rewrite Hc, <- app_assoc. split; reflexivity.
Qed.

Lemma add_course_twice_witness :
  stored initial_state = Some [] /\
  exists st1 st2,
    add_course "POST" algorithms_form initial_state
    = (Ok (redirect "course_catalog"), st1) /\
    add_course "POST" algorithms_form st1
    = (Ok (redirect "add_course"), st2) /\
    span_events st2
    = (span_events initial_state
       ++ [course_added (course_data algorithms_form);
           duplicate_course_code (Some "CS301")])%list /\
    stored st2 = Some ([] ++ [course_data algorithms_form])%list.
Proof.
  split; [reflexivity|].
  apply (add_course_twice initial_state [] algorithms_form "CS301").
  - reflexivity.
  - intros k Hk. simpl in Hk.
    repeat (destruct Hk as [<-|Hk]; [reflexivity|]). destruct Hk.
  - reflexivity.
  - intros c [].
Defined.

(** A course that was accepted is the last one of the next listing. *)
Theorem course_catalog_after_add_course
  (st : state) (l : list course) (form : form_data) :
  stored st = Some l ->
  fst (add_course "POST" form st) = Ok (redirect "course_catalog") ->
  fst (course_catalog (snd (add_course "POST" form st)))
  = Ok (render_template "course_catalog.html"
                        (with_courses (l ++ [course_data form]))).
Proof.
  intros H Hr.
  destruct (missing_fields (course_data form)) as [|k ks] eqn:Mf.
  - rewrite (add_course_valid_run form st l Mf H) in *.
    destruct (first_with_code (c_code (course_data form)) l); [discriminate|].
    rewrite course_catalog_fst. reflexivity.
  - rewrite (add_course_invalid_run form st) in Hr
      by (rewrite Mf; discriminate).
    discriminate.
Qed.

Lemma course_catalog_after_add_course_witness :
  stored (state_with [cs101]) = Some [cs101] /\
  fst (add_course "POST" algorithms_form (state_with [cs101]))
  = Ok (redirect "course_catalog") /\
  fst (course_catalog
         (snd (add_course "POST" algorithms_form (state_with [cs101]))))
  = Ok (render_template "course_catalog.html"
                        (with_courses
                           ([cs101] ++ [course_data algorithms_form]))).
Proof.
  split; [reflexivity|]. split; [reflexivity|].
  apply (course_catalog_after_add_course
           (state_with [cs101]) [cs101] algorithms_form);
    reflexivity.
Defined.

(** ** Accounting *)

(** Each route counter counts the requests: after serving any sequence
    of requests, handlers that raised included, the counter of a route
    has grown by the number of requests sent to that route. *)
Theorem route_counts_exact (rs : list request) :
  forall st k,
    route_at k (route_counts (serve rs st))
    = route_at k (route_counts st) + count_route k rs.
Proof.
  unfold count_route.
  induction rs as [|r rs IH]; intros st k; simpl.
  - lia.
  - rewrite IH. destruct (dispatch_counts r st) as [R _].
    rewrite R, route_bump_at.
    assert (E : route_name_eqb k (route_of r)
                = route_name_eqb (route_of r) k)
      by (now destruct k, (route_of r)).
    rewrite E. destruct (route_name_eqb (route_of r) k); simpl length; lia.
Qed.

Lemma count_errors_app (k : error_kind) (a b : list span_event) :
  count_errors k (a ++ b) = count_errors k a + count_errors k b.
Proof.
  unfold count_errors. rewrite filter_app, length_app. lia.
Qed.

Lemma dispatch_events (r : request) (st : state) :
  exists evs,
    span_events (snd (dispatch r st)) = (span_events st ++ evs)%list /\
    (length evs <= 1)%nat /\
    forall k, error_at k (error_counts (snd (dispatch r st)))
              = error_at k (error_counts st) + count_errors k evs.
Proof.
  dispatch_cases r st;
    (eexists; split; [reflexivity|]; split; [simpl; lia|];
     intros [|]; unfold after, count_errors; simpl;
     destruct (error_counts st); simpl; lia).
Qed.

(** The error counters move in step with the span events: over any
    sequence of requests, [error_counts['missing_fields']] grows by the
    number of [course_not_found] and [validation_failed] events added,
    [error_counts['duplicate_code']] by the number of
    [duplicate_course_code] events, and a request adds at most one
    event. *)
Theorem error_counts_follow_events (rs : list request) :
  forall st,
    exists evs,
      span_events (serve rs st) = (span_events st ++ evs)%list /\
      (length evs <= length rs)%nat /\
      forall k, error_at k (error_counts (serve rs st))
                = error_at k (error_counts st) + count_errors k evs.
Proof.
  induction rs as [|r rs IH]; intro st; simpl.
  - exists []. rewrite app_nil_r. split; [reflexivity|].
    split; [simpl; lia|]. intro k. unfold count_errors. simpl. lia.
  - destruct (dispatch_events r st) as (e1 & E1 & L1 & C1).
    destruct (IH (snd (dispatch r st))) as (e2 & E2 & L2 & C2).
    exists (e1 ++ e2)%list. split; [|split].
    + now rewrite E2, E1, app_assoc.
    + rewrite length_app. lia.
    + intro k. rewrite C2, C1, count_errors_app. lia.
Qed.

(** A redirect always comes with exactly one flashed message, a
    rendered page or an exception with none; the message is flashed as
    [success] exactly when the catalog file was rewritten, and as
    [error] otherwise. *)
Theorem redirects_flash_once (r : request) (st : state) :
  match fst (dispatch r st) with
  | Ok (redirect _) =>
      exists message category,
        flashes (snd (dispatch r st))
        = (flashes st ++ [(message, category)])%list /\
        (category = "success" /\
         course_file (snd (dispatch r st)) <> course_file st
         \/
         category = "error" /\
         course_file (snd (dispatch r st)) = course_file st)
  | _ => flashes (snd (dispatch r st)) = flashes st
  end.
Proof.
  dispatch_cases r st; unfold after; simpl; rewrite ?app_nil_r;
    try reflexivity;
    try (eexists; eexists; split; [reflexivity|]; right;
         split; reflexivity).
  eexists. eexists. split; [reflexivity|]. left.
  split; [reflexivity|]. now apply created_changes_file.
Qed.

(** ** The catalog only grows *)

Lemma dispatch_appends (r : request) (st : state) (l : list course) :
  stored st = Some l ->
  exists added,
    stored (snd (dispatch r st)) = Some (l ++ added)%list /\
    Forall complete added /\
    (length added <= 1)%nat /\
    Forall (fun c => exists form,
                r = req_add_course "POST" form /\ c = course_data form)
           added.
Proof.
  intro H.
  dispatch_cases r st;
    try (exists []; rewrite app_nil_r;
         split; [exact H | repeat split; try constructor; simpl; lia]).
  exists [course_data form]. split; [|split; [|split]].
  - unfold stored in *. simpl. congruence.
  - constructor; [now apply missing_fields_complete | constructor].
  - simpl. lia.
  - constructor; [now exists form | constructor].
Qed.

Lemma serve_appends (rs : list request) :
  forall st l,
    stored st = Some l ->
    exists added,
      stored (serve rs st) = Some (l ++ added)%list /\
      Forall complete added /\
      (length added <= length rs)%nat /\
      Forall (fun c => exists form,
                  In (req_add_course "POST" form) rs /\ c = course_data form)
             added.
Proof.
  induction rs as [|r rs IH]; intros st l H; simpl.
  - exists []. rewrite app_nil_r.
    split; [exact H | repeat split; try constructor; simpl; lia].
  - destruct (dispatch_appends r st l H) as (a1 & H1 & F1 & L1 & P1).
    destruct (IH _ _ H1) as (a2 & H2 & F2 & L2 & P2).
    exists (a1 ++ a2)%list. split; [|split; [|split]].
    + now rewrite H2, app_assoc.
    + apply Forall_app. now split.
    + rewrite length_app. lia.
    + apply Forall_app. split.
      * eapply Forall_impl; [|exact P1].
        intros c (form & -> & ->). exists form. split; [now left|reflexivity].
      * eapply Forall_impl; [|exact P2].
        intros c (form & Hin & ->). exists form.
        split; [now right|reflexivity].
Qed.

(** Stored courses are never changed, reordered or removed: after any
    sequence of requests a loadable catalog is the former one followed
    by what was added, at most one course per request; every added
    course has the four required values non-empty and is the candidate
    built from the form of one of the POST requests. *)
Theorem catalog_append_only
  (rs : list request) (st : state) (l : list course) :
  stored st = Some l ->
  exists added,
    stored (serve rs st) = Some (l ++ added)%list /\
    Forall complete added /\
    (length added <= length rs)%nat /\
    Forall (fun c => exists form,
                In (req_add_course "POST" form) rs /\ c = course_data form)
           added.
Proof. exact (serve_appends rs st l). Qed.

Lemma catalog_append_only_witness :
  stored (state_with [cs101]) = Some [cs101] /\
  exists added,
    stored (serve [req_add_course "POST" algorithms_form;
                   req_add_course "POST" clash_form;
                   req_catalog]
                  (state_with [cs101]))
    = Some ([cs101] ++ added)%list /\
    Forall complete added /\
    (length added
     <= length [req_add_course "POST" algorithms_form;
                req_add_course "POST" clash_form;
                req_catalog])%nat /\
    Forall (fun c => exists form,
                In (req_add_course "POST" form)
                   [req_add_course "POST" algorithms_form;
                    req_add_course "POST" clash_form;
                    req_catalog] /\
                c = course_data form)
           added.
Proof.
  split; [reflexivity|].
  apply (catalog_append_only
           [req_add_course "POST" algorithms_form;
            req_add_course "POST" clash_form;
            req_catalog]
           (state_with [cs101]) [cs101]).
  reflexivity.
Defined.

Lemma first_with_code_app (code : value) (l added : list course) (c : course) :
  first_with_code code l = Some c ->
  first_with_code code (l ++ added) = Some c.
Proof.
  unfold first_with_code. induction l as [|a l IH]; simpl; [discriminate|].
  destruct (value_eqb (c_code a) code); [trivial | exact IH].
Qed.

Lemma course_details_fst_found (st : state) (code : string) (c : course) :
  fst (course_details code st)
  = Ok (render_template "course_details.html" (with_course c)) <->
  exists l, stored st = Some l /\ first_with_code (Some code) l = Some c.
Proof.
  destruct (stored_cases st) as [[l H]|H].
  - rewrite (course_details_run st l code H).
    destruct (first_with_code (Some code) l) as [d|] eqn:F; simpl; split.
    + intros [= ->]. now exists l.
    + intros (l' & H' & F'). congruence.
    + discriminate.
    + intros (l' & H' & F'). congruence.
  - rewrite (course_details_raise st code H). simpl. split; [discriminate|].
    intros (l & H' & _). unfold stored in H'. rewrite H in H'. discriminate.
Qed.

(** A lookup that renders a course keeps rendering that same course
    whatever requests are served in between: nothing edits or removes
    it, and a course added later with the same code could only come
    after it. *)
Theorem course_details_stable
  (rs : list request) (st : state) (code : string) (c : course) :
  fst (course_details code st)
  = Ok (render_template "course_details.html" (with_course c)) ->
  fst (course_details code (serve rs st))
  = Ok (render_template "course_details.html" (with_course c)).
Proof.
  intro H. apply course_details_fst_found in H. destruct H as (l & H & F).
  destruct (serve_appends rs st l H) as (added & E & _).
  apply course_details_fst_found. exists (l ++ added)%list.
  split; [exact E | now apply first_with_code_app].
Qed.

Lemma course_details_stable_witness :
  fst (course_details "CS101" (state_with [cs101]))
  = Ok (render_template "course_details.html" (with_course cs101)) /\
  fst (course_details "CS101"
         (serve [req_add_course "POST" algorithms_form; req_course "CS301"]
                (state_with [cs101])))
  = Ok (render_template "course_details.html" (with_course cs101)).
Proof.
  split; [reflexivity|].
  apply (course_details_stable
           [req_add_course "POST" algorithms_form; req_course "CS301"]
           (state_with [cs101]) "CS101" cs101).
  reflexivity.
Defined.

(** ** A process started without a catalog *)

(** Whatever requests a fresh process serves, its catalog stays
    loadable, holds at most one course per request, the codes of its
    courses are pairwise distinct and each course has its four required
    values non-empty. *)
Theorem fresh_process_invariant (rs : list request) :
  exists l,
    stored (serve rs initial_state) = Some l /\
    NoDup (map c_code l) /\
    Forall complete l /\
    (length l <= length rs)%nat.
Proof.
  destruct (serve_appends rs initial_state [] eq_refl)
    as (added & E & Fc & Ln & _).
  destruct (serve_unique_codes rs initial_state [] eq_refl (NoDup_nil _))
    as (l' & E' & Hnd).
  simpl in E. exists added. rewrite E in E'. inversion E'; subst l'.
  now repeat split.
Qed.
